(** * DevSecOps-Multi-Cloud: the HTTP greeter service of [src/index.js]

    The executable part of the repository is one Express application:
    it computes [PORT] and [HOST], registers a single [GET /] route whose
    handler sends a fixed greeting, and starts listening.

    The development has four layers:
    - [JS]      the JavaScript values and operators the program uses;
    - [Node]    the process environment, HTTP methods, requests and the
                mutable response object;
    - [Express] the part of the framework the program calls: the router
                walk, automatic HEAD and OPTIONS handling, [res.send]
                with its cache-freshness support and the final
                not-found handler;
    - [Index]   the program itself, as a transition system over startup,
                bind and request events with a trace of effects. *)

From Stdlib Require Import ZArith String Ascii List Bool Lia.
From stdpp Require Import base option list strings gmap pretty.

Open Scope string_scope.
Open Scope list_scope.

(* ===================================================================== *)
(** ** JavaScript values *)
(* ===================================================================== *)

Module JS.

(** The values that can flow into [PORT]: [undefined] (a missing
    property of [process.env]), a string, or a number literal. *)
Inductive value : Type :=
| VUndefined
| VStr (s : string)
| VNum (n : Z).

#[global] Instance value_eq_dec : EqDecision value.
Proof. solve_decision. Defined.

(** ToBoolean: [undefined], the empty string and [0] are falsy. *)
Definition truthy (v : value) : bool :=
  match v with
  | VUndefined => false
  | VStr s => negb (String.eqb s "")
  | VNum n => negb (n =? 0)%Z
  end.

(** [a || b]: the left operand when it is truthy, else the right one.
    Neither operand is converted. *)
Definition or (a b : value) : value :=
  if truthy a then a else b.

(** ToString, as applied by a template literal. *)
Definition to_string (v : value) : string :=
  match v with
  | VUndefined => "undefined"
  | VStr s => s
  | VNum n => pretty n
  end.

(** Truthiness of an optional string such as a header field. *)
Definition truthy_str (o : option string) : bool :=
  match o with
  | Some s => negb (String.eqb s "")
  | None => false
  end.

End JS.

(* ===================================================================== *)
(** ** Node: environment, requests, response objects *)
(* ===================================================================== *)

Module Node.

(** [process.env]: every property that exists is a string. *)
Definition env_get (env : gmap string string) (name : string) : JS.value :=
  match env !! name with
  | Some s => JS.VStr s
  | None => JS.VUndefined
  end.

(** [http.METHODS]: the request methods the HTTP parser accepts, in
    upper case.  The server does not announce all of them the same
    way: a CONNECT request is emitted as [connect], every other one as
    [request] (see [Index.serve]). *)
Inductive Method : Type :=
| ACL | BIND | CHECKOUT | CONNECT | COPY | DELETE | GET | HEAD | LINK
| LOCK | M_SEARCH | MERGE | MKACTIVITY | MKCALENDAR | MKCOL | MOVE
| NOTIFY | OPTIONS | PATCH | POST | PROPFIND | PROPPATCH | PURGE | PUT
| QUERY | REBIND | REPORT | SEARCH | SOURCE | SUBSCRIBE | TRACE | UNBIND
| UNLINK | UNLOCK | UNSUBSCRIBE.

Definition method_name (m : Method) : string :=
  match m with
  | ACL => "ACL" | BIND => "BIND" | CHECKOUT => "CHECKOUT"
  | CONNECT => "CONNECT" | COPY => "COPY" | DELETE => "DELETE"
  | GET => "GET" | HEAD => "HEAD" | LINK => "LINK" | LOCK => "LOCK"
  | M_SEARCH => "M-SEARCH" | MERGE => "MERGE"
  | MKACTIVITY => "MKACTIVITY" | MKCALENDAR => "MKCALENDAR"
  | MKCOL => "MKCOL" | MOVE => "MOVE" | NOTIFY => "NOTIFY"
  | OPTIONS => "OPTIONS" | PATCH => "PATCH" | POST => "POST"
  | PROPFIND => "PROPFIND" | PROPPATCH => "PROPPATCH"
  | PURGE => "PURGE" | PUT => "PUT" | QUERY => "QUERY"
  | REBIND => "REBIND"
  | REPORT => "REPORT" | SEARCH => "SEARCH" | SOURCE => "SOURCE"
  | SUBSCRIBE => "SUBSCRIBE" | TRACE => "TRACE" | UNBIND => "UNBIND"
  | UNLINK => "UNLINK" | UNLOCK => "UNLOCK"
  | UNSUBSCRIBE => "UNSUBSCRIBE"
  end.

#[global] Instance Method_eq_dec : EqDecision Method.
Proof. solve_decision. Defined.

(** A request the server has parsed and is about to announce: the
    method, the pathname of the request target (the part before any
    query string), and the header fields under their lower-cased
    names.  What the parser refuses, or Node answers on its own before
    any listener runs, is not a request in this sense. *)
Record Request : Type := mkRequest {
  method : Method;
  path : string;
  headers : gmap string string
}.

(** The response object a handler mutates.  [finished] is set by
    [res.end]; [body] is what was written to the socket. *)
Record Response : Type := mkResponse {
  statusCode : Z;
  resHeaders : gmap string string;
  body : string;
  finished : bool
}.

(** A fresh [ServerResponse]: status 200, no header, nothing written. *)
Definition new_response : Response :=
  {| statusCode := 200; resHeaders := ∅; body := ""; finished := false |}.

Definition getHeader (name : string) (res : Response) : option string :=
  resHeaders res !! name.

Definition setHeader (name value : string) (res : Response) : Response :=
  {| statusCode := statusCode res;
     resHeaders := <[name := value]> (resHeaders res);
     body := body res;
     finished := finished res |}.

Definition removeHeader (name : string) (res : Response) : Response :=
  {| statusCode := statusCode res;
     resHeaders := delete name (resHeaders res);
     body := body res;
     finished := finished res |}.

Definition setStatus (code : Z) (res : Response) : Response :=
  {| statusCode := code;
     resHeaders := resHeaders res;
     body := body res;
     finished := finished res |}.

(** [res.end(chunk)]: write the chunk and finish the response. *)
Definition end_ (chunk : string) (res : Response) : Response :=
  {| statusCode := statusCode res;
     resHeaders := resHeaders res;
     body := chunk;
     finished := true |}.

End Node.

Export Node.

(* ===================================================================== *)
(** ** Express: the framework calls the program makes *)
(* ===================================================================== *)

(** [index.js] is three calls into Express 4: [express()], [app.get] and
    [app.listen], plus [res.send] in the handler.  What a client gets
    back is decided by the framework code behind them, which this
    module renders function by function:
    - [lib/application.js]: [lazyrouter], [app.get], [app.handle];
    - [lib/middleware/init.js]: [expressInit];
    - [lib/router/index.js]: the loop of [handle], [appendMethods],
      [sendOptionsResponse];
    - [lib/router/route.js]: [_handles_method], [_options], [dispatch];
    - [lib/request.js]: the getter [fresh];
    - [lib/response.js]: [send];
    - packages fresh and finalhandler. *)

Module Express.

(** Text functions of the framework's dependencies that are kept as
    parameters of the model:
    - [etagFn]: the weak entity tag of a body (package etag, a digest);
    - [setCharset]: rewrite the charset parameter of a media type;
    - [httpDateLe a b]: [parseHttpDate(a) <= parseHttpDate(b)];
    - [encodeUrl]: percent-encoding of the resource name;
    - [escapeMessage]: HTML escaping of the not-found message. *)
Class Platform : Type := {
  etagFn : string -> string;
  setCharset : string -> string -> string;
  httpDateLe : string -> string -> bool;
  encodeUrl : string -> string;
  escapeMessage : string -> string
}.

(** *** Package fresh: is a conditional request still fresh? *)

(** The class [\s] on the code units a header value can hold. *)
Definition is_space (c : ascii) : bool :=
  existsb (N.eqb (N_of_ascii c)) [9; 10; 11; 12; 13; 32; 160]%N.

Fixpoint split_go (sep : ascii) (cur s : string) : list string :=
  match s with
  | EmptyString => [String.rev cur]
  | String c s' =>
      if Ascii.eqb c sep then String.rev cur :: split_go sep EmptyString s'
      else split_go sep (String c cur) s'
  end.

(** [s.split(sep)] for a one-character separator. *)
Definition split (sep : ascii) (s : string) : list string :=
  split_go sep EmptyString s.

Fixpoint ltrim (s : string) : string :=
  match s with
  | EmptyString => EmptyString
  | String c s' => if is_space c then ltrim s' else s
  end.

Definition trim (s : string) : string :=
  String.rev (ltrim (String.rev (ltrim s))).

(** [/(?:^|,)\s*?no-cache\s*?(?:,|$)/.test(cc)]: some comma-separated
    element of the field is [no-cache] up to surrounding white space. *)
Definition no_cache (cc : string) : bool :=
  existsb (fun e => String.eqb (trim e) "no-cache") (split "," cc).

(** [parseTokenList]: one pass with the indices [start] and [end] of
    the current token; a space is skipped only before a token starts,
    a comma closes the token. *)
Fixpoint parseTokenList_go (str rest : string) (i start end_ : nat)
  : list string :=
  match rest with
  | EmptyString => [substring start (end_ - start) str]
  | String c rest' =>
      if Ascii.eqb c " " then
        if Nat.eqb start end_
        then parseTokenList_go str rest' (S i) (S i) (S i)
        else parseTokenList_go str rest' (S i) start end_
      else if Ascii.eqb c "," then
        substring start (end_ - start) str
          :: parseTokenList_go str rest' (S i) (S i) (S i)
      else parseTokenList_go str rest' (S i) start (S i)
  end.

Definition parseTokenList (str : string) : list string :=
  parseTokenList_go str str 0 0 0.

(** [match === etag || match === 'W/' + etag || 'W/' + match === etag] *)
Definition etag_matches (etag m : string) : bool :=
  String.eqb m etag || String.eqb m ("W/" +:+ etag)
  || String.eqb ("W/" +:+ m) etag.

Section WithPlatform.
Context `{Platform}.

(** [fresh(reqHeaders, { etag, 'last-modified' })]. *)
Definition fresh (reqHeaders : gmap string string)
    (etag lastModified : option string) : bool :=
  let modifiedSince := reqHeaders !! "if-modified-since" in
  let noneMatch := reqHeaders !! "if-none-match" in
  if negb (JS.truthy_str modifiedSince) && negb (JS.truthy_str noneMatch)
  then false                                   (* unconditional request *)
  else if match reqHeaders !! "cache-control" with
          | Some cc => no_cache cc
          | None => false
          end
  then false                                   (* end-to-end reload *)
  else if JS.truthy_str noneMatch
          && negb (bool_decide (noneMatch = Some "*"))
          && match etag with
             | Some e =>
                 if String.eqb e "" then true
                 else negb (existsb (etag_matches e)
                              (parseTokenList (default "" noneMatch)))
             | None => true
             end
  then false                                   (* no tag, or none matches *)
  else if JS.truthy_str modifiedSince
          && match lastModified with
             | Some lm =>
                 if String.eqb lm "" then true
                 else negb (httpDateLe lm (default "" modifiedSince))
             | None => true
             end
  then false                                   (* modified since *)
  else true.

(** The tag [res.send] generates for a chunk; the generator may
    decline, which leaves the response without one. *)
Definition etag_of (chunk : string) : option string :=
  if String.eqb (etagFn chunk) "" then None else Some (etagFn chunk).

(** The getter [req.fresh]: only GET and HEAD, only on a 2xx or 304
    status, then the test above on the response's validators. *)
Definition req_fresh (req : Request) (res : Response) : bool :=
  if bool_decide (method req = GET) || bool_decide (method req = HEAD) then
    let status := statusCode res in
    if ((200 <=? status) && (status <? 300) || (status =? 304))%Z
    then fresh (headers req) (getHeader "etag" res)
               (getHeader "last-modified" res)
    else false
  else false.

(** *** [res.send(body)] for a string body *)

(** The entity headers:
    - the content type defaults to html and gets the utf-8 charset
      ([this.type('html')] stores [text/html; charset=utf-8], which
      [setCharset] leaves as it is);
    - the content length is the byte length of the chunk (a [string]
      here is the UTF-8 byte sequence);
    - an entity tag is generated unless one is set. *)
Definition send_entity_headers (chunk : string) (res : Response)
  : Response :=
  let res :=
    match getHeader "content-type" res with
    | Some t =>
        if String.eqb t ""
        then setHeader "content-type" "text/html; charset=utf-8" res
        else setHeader "content-type" (setCharset t "utf-8") res
    | None => setHeader "content-type" "text/html; charset=utf-8" res
    end in
  let generateETag := negb (JS.truthy_str (getHeader "etag" res)) in
  let res := setHeader "content-length" (pretty (String.length chunk)) res in
  match etag_of chunk with
  | Some tag => if generateETag then setHeader "etag" tag res else res
  | None => res
  end.

(** [if (req.fresh) this.statusCode = 304;] *)
Definition send_freshness (req : Request) (res : Response) : Response :=
  if req_fresh req res then setStatus 304 res else res.

(** 204 and 304 drop the entity headers and the body. *)
Definition send_strip (res : Response) (chunk : string)
  : Response * string :=
  if ((statusCode res =? 204) || (statusCode res =? 304))%Z
  then (removeHeader "transfer-encoding"
          (removeHeader "content-length"
             (removeHeader "content-type" res)), "")
  else (res, chunk).

(** 205 resets the length and drops the body. *)
Definition send_reset (res : Response) (chunk : string)
  : Response * string :=
  if (statusCode res =? 205)%Z
  then (removeHeader "transfer-encoding"
          (setHeader "content-length" "0" res), "")
  else (res, chunk).

(** The whole of [res.send]; a HEAD request gets the headers and no
    body. *)
Definition send (req : Request) (chunk : string) (res : Response)
  : Response :=
  let res := send_freshness req (send_entity_headers chunk res) in
  let '(res, chunk) := send_strip res chunk in
  let '(res, chunk) := send_reset res chunk in
  if bool_decide (method req = HEAD) then end_ "" res else end_ chunk res.

(** *** Package finalhandler: the response when nothing answered *)

Definition nl : string := String (ascii_of_nat 10) EmptyString.
Definition dq : string := String (ascii_of_nat 34) EmptyString.

Definition createHtmlDocument (message : string) : string :=
  "<!DOCTYPE html>" +:+ nl +:+
  "<html lang=" +:+ dq +:+ "en" +:+ dq +:+ ">" +:+ nl +:+
  "<head>" +:+ nl +:+
  "<meta charset=" +:+ dq +:+ "utf-8" +:+ dq +:+ ">" +:+ nl +:+
  "<title>Error</title>" +:+ nl +:+
  "</head>" +:+ nl +:+
  "<body>" +:+ nl +:+
  "<pre>" +:+ escapeMessage message +:+ "</pre>" +:+ nl +:+
  "</body>" +:+ nl +:+
  "</html>" +:+ nl.

(** Called without an error: status 404 and the message
    [Cannot METHOD path]; a response already under way is left alone. *)
Definition finalhandler (req : Request) (res : Response) : Response :=
  if finished res then res
  else
    let msg :=
      "Cannot " +:+ method_name (method req) +:+ " " +:+ encodeUrl (path req) in
    let doc := createHtmlDocument msg in
    let res := setStatus 404 res in
    let res := removeHeader "content-encoding" res in
    let res := removeHeader "content-language" res in
    let res := removeHeader "content-range" res in
    let res := setHeader "content-security-policy" "default-src 'none'" res in
    let res := setHeader "x-content-type-options" "nosniff" res in
    let res := setHeader "content-type" "text/html; charset=utf-8" res in
    let res := setHeader "content-length" (pretty (String.length doc)) res in
    if bool_decide (method req = HEAD) then end_ "" res else end_ doc res.

End WithPlatform.

(** *** Routes, layers and the router walk *)

(** What a handler did with the request: it answered it, or it called
    [next()]. *)
Inductive Control : Type := Next | Done.

Definition Handler : Type := Request -> Response -> Response * Control.

(** A route: its path pattern, the keys of its [methods] object in
    insertion order, and its stack of (method, handler) layers. *)
Record Route : Type := mkRoute {
  route_path : string;
  route_methods : list Method;
  route_stack : list (Method * Handler)
}.

(** A layer of the router's stack: plain middleware (mounted at the
    root, it matches every path) or a route. *)
Inductive Layer : Type :=
| Middleware (fn : Handler)
| RouteLayer (r : Route).

(** The application; [router] is created lazily by the first call
    that needs it. *)
Record App : Type := mkApp { router : option (list Layer) }.

(** [express()] *)
Definition express : App := {| router := None |}.

(** The two layers [lazyrouter] installs: the query parser, which only
    decorates the request, and [expressInit], which sets the
    [X-Powered-By] header.  Both call [next()]. *)
Definition query : Handler := fun _ res => (res, Next).

Definition expressInit : Handler :=
  fun _ res => (setHeader "x-powered-by" "Express" res, Next).

Definition lazyrouter (app : App) : list Layer :=
  match router app with
  | Some stack => stack
  | None => [Middleware query; Middleware expressInit]
  end.

(** [route[method](handler)]: record the method, push a layer. *)
Definition route_add (m : Method) (h : Handler) (r : Route) : Route :=
  {| route_path := route_path r;
     route_methods :=
       if bool_decide (m ∈ route_methods r) then route_methods r
       else route_methods r ++ [m];
     route_stack := route_stack r ++ [(m, h)] |}.

(** [app.get(path, handler)]: a new route at the end of the stack. *)
Definition app_get (p : string) (h : Handler) (app : App) : App :=
  {| router :=
       Some (lazyrouter app
               ++ [RouteLayer (route_add GET h (mkRoute p [] []))]) |}.

(** Does the route's pattern accept the pathname?  For the pattern
    ["/"] the compiled expression is [^\/?$]; a request pathname is
    never empty, so it accepts exactly ["/"].  (Longer literal
    patterns would also ignore case and one trailing slash.) *)
Definition match_path (pattern pathname : string) : bool :=
  String.eqb pattern pathname.

(** [route._handles_method]: HEAD is served by GET when the route has
    no HEAD handler of its own. *)
Definition normalize_method (r : Route) (m : Method) : Method :=
  if bool_decide (m = HEAD) && negb (bool_decide (HEAD ∈ route_methods r))
  then GET else m.

Definition handles_method (r : Route) (m : Method) : bool :=
  bool_decide (normalize_method r m ∈ route_methods r).

(** [route._options]: the methods of the route, with the automatic
    HEAD. *)
Definition route_options (r : Route) : list Method :=
  route_methods r
    ++ (if bool_decide (GET ∈ route_methods r)
           && negb (bool_decide (HEAD ∈ route_methods r))
        then [HEAD] else []).

(** [appendMethods]: add the methods not yet listed. *)
Definition appendMethods (l addition : list Method) : list Method :=
  fold_left (fun acc m => if bool_decide (m ∈ acc) then acc else acc ++ [m])
            addition l.

(** [route.dispatch]: run the layers registered for the method. *)
Fixpoint dispatch (m : Method) (st : list (Method * Handler))
    (req : Request) (res : Response) : Response * Control :=
  match st with
  | [] => (res, Next)
  | (lm, h) :: st' =>
      if bool_decide (lm = m) then
        match h req res with
        | (res', Next) => dispatch m st' req res'
        | (res', Done) => (res', Done)
        end
      else dispatch m st' req res
  end.

(** The loop of [router.handle]: find the next matching layer, run it,
    go on while handlers call [next()].  For an OPTIONS request the
    methods of the routes that match the path are collected. *)
Fixpoint walk (stack : list Layer) (req : Request) (res : Response)
    (options : list Method) : Response * Control * list Method :=
  match stack with
  | [] => (res, Next, options)
  | Middleware fn :: rest =>
      match fn req res with
      | (res', Next) => walk rest req res' options
      | (res', Done) => (res', Done, options)
      end
  | RouteLayer r :: rest =>
      if negb (match_path (route_path r) (path req))
      then walk rest req res options
      else
        let has_method := handles_method r (method req) in
        let options :=
          if negb has_method && bool_decide (method req = OPTIONS)
          then appendMethods options (route_options r) else options in
        if negb has_method && negb (bool_decide (method req = HEAD))
        then walk rest req res options
        else
          match dispatch (normalize_method r (method req))
                         (route_stack r) req res with
          | (res', Next) => walk rest req res' options
          | (res', Done) => (res', Done, options)
          end
  end.

Section WithPlatform.
Context `{Platform}.

(** [sendOptionsResponse]: the automatic answer to OPTIONS. *)
Definition sendOptionsResponse (req : Request) (options : list Method)
    (res : Response) : Response :=
  let allow := String.concat "," (map method_name options) in
  send req allow (setHeader "allow" allow res).

(** [app.handle]: walk the stack on a new response; when no layer
    answered, an OPTIONS request with collected methods gets the
    automatic answer, anything else the final handler. *)
Definition handle (app : App) (req : Request) : Response :=
  match router app with
  | None => finalhandler req new_response
  | Some stack =>
      match walk stack req new_response [] with
      | (res, Done, _) => res
      | (res, Next, options) =>
          if bool_decide (method req = OPTIONS)
             && negb (bool_decide (options = []))
          then sendOptionsResponse req options res
          else finalhandler req res
      end
  end.

End WithPlatform.

End Express.

Export Express.

(* ===================================================================== *)
(** ** index.js *)
(* ===================================================================== *)

Module Index.

(** [const PORT = process.env.APP_PORT_NUMBER || 80;] *)
Definition PORT (env : gmap string string) : JS.value :=
  JS.or (env_get env "APP_PORT_NUMBER") (JS.VNum 80).

(** [const HOST = '0.0.0.0';] *)
Definition HOST : string := "0.0.0.0".

(** The string literal passed to [res.send]. *)
Definition greeting : string :=
  "Jay Shree Krishna! Welcome to the world of DevOps!...".

(** What the process does to the outside world. *)
Inductive Effect : Type :=
| EnvRead (name : string)                  (* a read of process.env *)
| Listen (port : JS.value) (host : string) (* app.listen(port, host, cb) *)
| Log (line : string)                      (* console.log *)
| Respond (res : Response).                (* a finished response *)

(** What the outside world does to the process after startup: the
    bind succeeds (the server emits [listening]), the bind fails (an
    unhandled [error], the process exits), or a request arrives. *)
Inductive Event : Type :=
| Listening
| BindError
| Incoming (time : Z) (req : Request).

Inductive Phase : Type := Binding | Serving | Exited.

(** The process: the live environment object, the two module
    constants as bound at startup, and the state of the server. *)
Record Process : Type := mkProcess {
  env : gmap string string;
  port : JS.value;
  host : string;
  phase : Phase
}.

Section WithPlatform.
Context `{Platform}.

(** [(req, res) => { res.send('...'); }] *)
Definition root_handler : Handler :=
  fun req res => (send req greeting res, Done).

(** [const app = express(); app.get('/', ...);] *)
Definition app : App := app_get "/" root_handler express.

(** What the server does with a request.  A CONNECT request is
    announced by the [connect] event, never by [request]; the program
    registers no listener for it, so Node destroys the socket and
    nothing is sent back.  Every other request is emitted as [request]
    and answered by the application. *)
Definition serve (req : Request) : option Response :=
  if bool_decide (method req = CONNECT) then None
  else Some (handle app req).

(** The callback of [app.listen], registered for the first
    [listening] event only. *)
Definition on_listening (s : Process) : list Effect :=
  [Log ("Running on http://" +:+ host s +:+ ":" +:+ JS.to_string (port s))].

(** The top level of the module, run once when the process starts. *)
Definition main (e : gmap string string) : Process * list Effect :=
  ({| env := e; port := PORT e; host := HOST; phase := Binding |},
   [EnvRead "APP_PORT_NUMBER"; Listen (PORT e) HOST]).

(** One turn of the event loop. *)
Definition step (s : Process) (ev : Event) : Process * list Effect :=
  match phase s, ev with
  | Binding, Listening =>
      ({| env := env s; port := port s; host := host s; phase := Serving |},
       on_listening s)
  | Binding, BindError =>
      ({| env := env s; port := port s; host := host s; phase := Exited |},
       [])
  | Serving, Incoming _ req =>
      (s, match serve req with
          | Some res => [Respond res]
          | None => []
          end)
  | _, _ => (s, [])
  end.

Fixpoint steps (s : Process) (evs : list Event) : Process * list Effect :=
  match evs with
  | [] => (s, [])
  | ev :: evs' =>
      let '(s1, out1) := step s ev in
      let '(s2, out2) := steps s1 evs' in
      (s2, out1 ++ out2)
  end.

(** A whole execution: startup, then the events in order. *)
Definition run (e : gmap string string) (evs : list Event)
  : Process * list Effect :=
  let '(s0, out0) := main e in
  let '(s, out) := steps s0 evs in
  (s, out0 ++ out).

(** *** Names for the parts of the program the statements mention *)

(** The route [app.get('/', ...)] creates. *)
Definition root_route : Route :=
  {| route_path := "/";
     route_methods := [GET];
     route_stack := [(GET, root_handler)] |}.

(** The response object as the root handler receives it. *)
Definition init_response : Response :=
  setHeader "x-powered-by" "Express" new_response.

(** The freshness test as [res.send] runs it in the root handler: the
    response carries the entity tag of the greeting and no
    [Last-Modified]. *)
Definition root_fresh (req : Request) : bool :=
  fresh (headers req) (etag_of greeting) None.

End WithPlatform.

(** The process with another environment object. *)
Definition with_env (e : gmap string string) (s : Process) : Process :=
  {| env := e; port := port s; host := host s; phase := phase s |}.

(** Projections of a trace. *)
Definition is_env_read (eff : Effect) : bool :=
  match eff with EnvRead _ => true | _ => false end.

Definition is_listen (eff : Effect) : bool :=
  match eff with Listen _ _ => true | _ => false end.

Definition is_respond (eff : Effect) : bool :=
  match eff with Respond _ => true | _ => false end.

Fixpoint logs (out : list Effect) : list string :=
  match out with
  | [] => []
  | Log line :: out' => line :: logs out'
  | _ :: out' => logs out'
  end.

(** The line the startup callback prints. *)
Definition startup_line (e : gmap string string) : string :=
  "Running on http://0.0.0.0:" +:+ JS.to_string (PORT e).

(** *** Concrete inputs *)

(** A platform with the simplest text functions, to evaluate the
    model on concrete requests.  The theorems hold for every
    platform. *)
Definition plain_platform : Platform :=
  {| etagFn := fun chunk => "W/" +:+ pretty (String.length chunk);
     setCharset := fun type _ => type;
     httpDateLe := fun _ _ => true;
     encodeUrl := fun url => url;
     escapeMessage := fun msg => msg |}.

Definition get_root : Request :=
  {| method := GET; path := "/"; headers := ∅ |}.

(** The same request with a validator that matches any entity tag. *)
Definition get_root_if_none_match : Request :=
  {| method := GET; path := "/"; headers := {[ "if-none-match" := "*" ]} |}.

Definition get_health : Request :=
  {| method := GET; path := "/health"; headers := ∅ |}.

Definition post_root : Request :=
  {| method := POST; path := "/"; headers := ∅ |}.

Definition options_root : Request :=
  {| method := OPTIONS; path := "/"; headers := ∅ |}.

End Index.

Import Index.

(** A response no handler has answered yet and that carries neither a
    content type nor a validator. *)
Record clean (res : Response) : Prop := {
  clean_status : statusCode res = 200%Z;
  clean_type : getHeader "content-type" res = None;
  clean_etag : getHeader "etag" res = None;
  clean_modified : getHeader "last-modified" res = None
}.

(** The two characters that end a token in an If-None-Match list. *)
Definition is_sep (c : ascii) : bool := Ascii.eqb c " " || Ascii.eqb c ",".

(** A string that holds neither of them, as every entity tag does. *)
Fixpoint plain_token (s : string) : bool :=
  match s with
  | EmptyString => true
  | String c s' => negb (is_sep c) && plain_token s'
  end.

(** The text of the port in the startup line. *)
Definition port_text (e : gmap string string) : string :=
  match e !! "APP_PORT_NUMBER" with
  | Some v => if String.eqb v "" then "80" else v
  | None => "80"
  end.

(* ===================================================================== *)
(** ** Header bookkeeping *)
(* ===================================================================== *)

Lemma getHeader_setHeader (k k' v : string) (res : Response) :
  getHeader k (setHeader k' v res)
  = if decide (k' = k) then Some v else getHeader k res.
Proof. unfold getHeader, setHeader; cbn. apply lookup_insert. Qed.

Lemma getHeader_removeHeader (k k' : string) (res : Response) :
  getHeader k (removeHeader k' res)
  = if decide (k' = k) then None else getHeader k res.
Proof. unfold getHeader, removeHeader; cbn. apply lookup_delete. Qed.

Ltac header_lookup :=
  repeat first
    [ rewrite getHeader_setHeader
    | rewrite getHeader_removeHeader
    | rewrite decide_True by reflexivity
    | rewrite decide_False by discriminate ].

(* ===================================================================== *)
(** ** [res.send] on an untouched response *)
(* ===================================================================== *)

Section Send.
Context `{Platform}.

Lemma init_response_clean : clean init_response.
Proof. split; reflexivity. Qed.

Lemma entity_headers_clean (chunk : string) (res : Response) :
  clean res ->
  statusCode (send_entity_headers chunk res) = 200%Z
  /\ getHeader "content-type" (send_entity_headers chunk res)
     = Some "text/html; charset=utf-8"
  /\ getHeader "etag" (send_entity_headers chunk res) = etag_of chunk
  /\ getHeader "last-modified" (send_entity_headers chunk res) = None.
Proof.
  intros [Hs Hct Het Hlm]. unfold send_entity_headers.
  rewrite Hct. cbv zeta. header_lookup. rewrite Het. cbn [JS.truthy_str negb].
  destruct (etag_of chunk) as [tag|]; header_lookup;
    cbn [statusCode setHeader]; auto.
Qed.

(** The entity headers leave the [Allow] header alone. *)
Lemma entity_headers_allow (chunk : string) (res : Response) :
  getHeader "allow" (send_entity_headers chunk res) = getHeader "allow" res.
Proof.
  unfold send_entity_headers.
  destruct (getHeader "content-type" res) as [t|];
    [destruct (String.eqb t "") |]; cbv zeta;
    destruct (etag_of chunk); try destruct (negb _);
    header_lookup; reflexivity.
Qed.

Lemma req_fresh_validators (req : Request) (res : Response) :
  method req = GET \/ method req = HEAD ->
  statusCode res = 200%Z ->
  req_fresh req res
  = fresh (headers req) (getHeader "etag" res) (getHeader "last-modified" res).
Proof.
  intros Hm Hs. unfold req_fresh. rewrite Hs.
  destruct Hm as [-> | ->]; reflexivity.
Qed.

Lemma req_fresh_other_method (req : Request) (res : Response) :
  method req <> GET -> method req <> HEAD -> req_fresh req res = false.
Proof.
  intros Hg Hh. unfold req_fresh.
  rewrite !bool_decide_eq_false_2 by assumption. reflexivity.
Qed.

(** A fresh request: 304, no entity headers, no body. *)
Lemma send_clean_fresh (req : Request) (chunk : string) (res : Response) :
  clean res -> req_fresh req (send_entity_headers chunk res) = true ->
  statusCode (send req chunk res) = 304%Z
  /\ body (send req chunk res) = ""
  /\ getHeader "content-type" (send req chunk res) = None.
Proof.
  intros Hc Hf. unfold send, send_freshness. rewrite Hf.
  unfold send_strip, send_reset. cbn [statusCode setStatus removeHeader].
  change ((304 =? 204)%Z || (304 =? 304)%Z) with true. cbv iota.
  cbn [statusCode setStatus removeHeader].
  change (304 =? 205)%Z with false. cbv iota.
  destruct (bool_decide (method req = HEAD)); repeat split; try reflexivity;
    change (getHeader "content-type" (end_ ?c ?r))
      with (getHeader "content-type" r);
    header_lookup; reflexivity.
Qed.

(** Any other request: the chunk goes out under the entity headers,
    which do not depend on the request. *)
Lemma send_clean_stale_eq (req : Request) (chunk : string) (res : Response) :
  clean res -> req_fresh req (send_entity_headers chunk res) = false ->
  send req chunk res
  = end_ (if bool_decide (method req = HEAD) then "" else chunk)
         (send_entity_headers chunk res).
Proof.
  intros Hc Hf. destruct (entity_headers_clean chunk res Hc) as (Hs & _).
  unfold send, send_freshness. rewrite Hf.
  unfold send_strip, send_reset. rewrite Hs.
  change ((200 =? 204)%Z || (200 =? 304)%Z) with false. cbv iota.
  rewrite Hs. change (200 =? 205)%Z with false. cbv iota.
  destruct (bool_decide (method req = HEAD)); reflexivity.
Qed.

Lemma send_clean_stale (req : Request) (chunk : string) (res : Response) :
  clean res -> req_fresh req (send_entity_headers chunk res) = false ->
  statusCode (send req chunk res) = 200%Z
  /\ body (send req chunk res)
     = (if bool_decide (method req = HEAD) then "" else chunk)
  /\ getHeader "content-type" (send req chunk res)
     = Some "text/html; charset=utf-8".
Proof.
  intros Hc Hf. rewrite send_clean_stale_eq by assumption.
  destruct (entity_headers_clean chunk res Hc) as (Hs & Hct & _).
  repeat split; assumption.
Qed.

(** In the root handler the freshness test of [res.send] is
    [root_fresh]. *)
Lemma root_fresh_spec (req : Request) :
  method req = GET \/ method req = HEAD ->
  req_fresh req (send_entity_headers greeting init_response) = root_fresh req.
Proof.
  intros Hm.
  destruct (entity_headers_clean greeting _ init_response_clean)
    as (Hs & _ & Het & Hlm).
  rewrite req_fresh_validators by assumption.
  rewrite Het, Hlm. reflexivity.
Qed.

(** A request without validators is never fresh. *)
Lemma fresh_unconditional (hs : gmap string string)
    (etag lm : option string) :
  hs !! "if-none-match" = None -> hs !! "if-modified-since" = None ->
  fresh hs etag lm = false.
Proof. intros Hn Hm. unfold fresh. rewrite Hn, Hm. reflexivity. Qed.

(** [If-None-Match: *] alone is fresh whatever the entity tag. *)
Lemma fresh_star (etag lm : option string) :
  fresh {[ "if-none-match" := "*" ]} etag lm = true.
Proof. reflexivity. Qed.

(** The response to a request the root route serves. *)
Lemma served_root (req : Request) :
  method req = GET \/ method req = HEAD ->
  (root_fresh req = false ->
     statusCode (send req greeting init_response) = 200%Z
     /\ body (send req greeting init_response)
        = (if bool_decide (method req = HEAD) then "" else greeting)
     /\ getHeader "content-type" (send req greeting init_response)
        = Some "text/html; charset=utf-8")
  /\ (root_fresh req = true ->
     statusCode (send req greeting init_response) = 304%Z
     /\ body (send req greeting init_response) = ""
     /\ getHeader "content-type" (send req greeting init_response) = None).
Proof.
  intros Hm. pose proof (root_fresh_spec req Hm) as Hf. split; intros Hr.
  - apply send_clean_stale; [apply init_response_clean | congruence].
  - apply send_clean_fresh; [apply init_response_clean | congruence].
Qed.

End Send.

(* ===================================================================== *)
(** ** The router on the program's stack *)
(* ===================================================================== *)

Section Routing.
Context `{Platform}.

Lemma app_router :
  router app
  = Some [Middleware query; Middleware expressInit; RouteLayer root_route].
Proof. reflexivity. Qed.

(** [app.handle] by cases on the path and the method. *)
Lemma handle_app (req : Request) :
  handle app req =
  if String.eqb "/" (path req) then
    match method req with
    | GET | HEAD => send req greeting init_response
    | OPTIONS => sendOptionsResponse req [GET; HEAD] init_response
    | _ => finalhandler req init_response
    end
  else finalhandler req init_response.
Proof.
  unfold handle. rewrite app_router. cbn [walk query expressInit].
  unfold match_path. cbn [root_route route_path].
  destruct (String.eqb "/" (path req)); cbn [negb].
  - destruct req as [m p h]; destruct m; reflexivity.
  - destruct (bool_decide (method req = OPTIONS)); reflexivity.
Qed.

Lemma handle_other_path (req : Request) :
  path req <> "/" -> handle app req = finalhandler req init_response.
Proof.
  intros Hp. rewrite handle_app.
  destruct (String.eqb_spec "/" (path req)); [congruence | reflexivity].
Qed.

Lemma finalhandler_init (req : Request) :
  statusCode (finalhandler req init_response) = 404%Z
  /\ body (finalhandler req init_response) <> greeting.
Proof.
  unfold finalhandler. cbn [finished init_response setHeader new_response].
  destruct (bool_decide (method req = HEAD)); split; try reflexivity;
    cbn; discriminate.
Qed.

Lemma options_init (req : Request) :
  method req = OPTIONS ->
  statusCode (sendOptionsResponse req [GET; HEAD] init_response) = 200%Z
  /\ body (sendOptionsResponse req [GET; HEAD] init_response) = "GET,HEAD"
  /\ getHeader "content-type"
       (sendOptionsResponse req [GET; HEAD] init_response)
     = Some "text/html; charset=utf-8"
  /\ getHeader "allow" (sendOptionsResponse req [GET; HEAD] init_response)
     = Some "GET,HEAD".
Proof.
  intros Hm. unfold sendOptionsResponse.
  change (String.concat "," (map method_name [GET; HEAD])) with "GET,HEAD".
  assert (Hc : clean (setHeader "allow" "GET,HEAD" init_response))
    by (split; reflexivity).
  assert (Hf : req_fresh req
                 (send_entity_headers "GET,HEAD"
                    (setHeader "allow" "GET,HEAD" init_response)) = false)
    by (apply req_fresh_other_method; rewrite Hm; discriminate).
  destruct (send_clean_stale req "GET,HEAD" _ Hc Hf) as (Hs & Hb & Hct).
  rewrite Hm in Hb. repeat split; try assumption.
  rewrite send_clean_stale_eq by assumption.
  change (getHeader "allow" (end_ ?c ?r)) with (getHeader "allow" r).
  rewrite entity_headers_allow. reflexivity.
Qed.

End Routing.

(* ===================================================================== *)
(** ** The event loop *)
(* ===================================================================== *)

Section EventLoop.
Context `{Platform}.

Lemma steps_cons (s : Process) (ev : Event) (evs : list Event) :
  steps s (ev :: evs)
  = (fst (steps (fst (step s ev)) evs),
     snd (step s ev) ++ snd (steps (fst (step s ev)) evs)).
Proof.
  cbn [steps]. destruct (step s ev) as [s1 out1]. cbn [fst snd].
  destruct (steps s1 evs) as [s2 out2]. reflexivity.
Qed.

Lemma run_eq (e : gmap string string) (evs : list Event) :
  run e evs
  = (fst (steps (fst (main e)) evs),
     EnvRead "APP_PORT_NUMBER" :: Listen (PORT e) HOST
       :: snd (steps (fst (main e)) evs)).
Proof.
  unfold run, main. cbn [fst snd].
  destruct (steps _ evs) as [s out]. reflexivity.
Qed.

(** No turn of the event loop rebinds a constant or touches the
    environment object. *)
Lemma step_frame (s : Process) (ev : Event) :
  port (fst (step s ev)) = port s
  /\ host (fst (step s ev)) = host s
  /\ env (fst (step s ev)) = env s.
Proof. unfold step. destruct (phase s), ev; cbn; auto. Qed.

Lemma steps_frame (evs : list Event) (s : Process) :
  port (fst (steps s evs)) = port s
  /\ host (fst (steps s evs)) = host s
  /\ env (fst (steps s evs)) = env s.
Proof.
  revert s. induction evs as [|ev evs IH]; intros s; [cbn; auto |].
  rewrite steps_cons. cbn [fst].
  destruct (IH (fst (step s ev))) as (Hp & Hh & He).
  destruct (step_frame s ev) as (Hp' & Hh' & He').
  repeat split; congruence.
Qed.

(** No turn of the event loop reads the environment or binds. *)
Lemma step_no_startup_effect (s : Process) (ev : Event) :
  filter is_env_read (snd (step s ev)) = []
  /\ filter is_listen (snd (step s ev)) = [].
Proof.
  unfold step. destruct (phase s), ev; try destruct (serve _); cbn; auto.
Qed.

Lemma steps_no_startup_effect (evs : list Event) (s : Process) :
  filter is_env_read (snd (steps s evs)) = []
  /\ filter is_listen (snd (steps s evs)) = [].
Proof.
  revert s. induction evs as [|ev evs IH]; intros s; [cbn; auto |].
  rewrite steps_cons. cbn [snd]. rewrite !filter_app.
  destruct (step_no_startup_effect s ev) as [-> ->].
  destruct (IH (fst (step s ev))) as [-> ->]. auto.
Qed.

(** The event loop never looks at the environment object: with another
    one in its place it does the same. *)
Lemma step_env_irrelevant (e : gmap string string) (s : Process)
    (ev : Event) :
  step (with_env e s) ev = (with_env e (fst (step s ev)), snd (step s ev)).
Proof.
  unfold step, with_env. destruct s as [e0 p h ph], ph, ev; reflexivity.
Qed.

Lemma steps_env_irrelevant (e : gmap string string) (evs : list Event)
    (s : Process) :
  steps (with_env e s) evs
  = (with_env e (fst (steps s evs)), snd (steps s evs)).
Proof.
  revert s. induction evs as [|ev evs IH]; intros s; [reflexivity |].
  rewrite !steps_cons, step_env_irrelevant. cbn [fst snd].
  rewrite IH. reflexivity.
Qed.

Lemma logs_app (a b : list Effect) : logs (a ++ b) = logs a ++ logs b.
Proof.
  induction a as [|eff a IH]; [reflexivity |].
  destruct eff; cbn; rewrite ?IH; reflexivity.
Qed.

(** Once the server has left the binding phase nothing is logged; while
    it is binding, at most the startup line is still to come. *)
Lemma steps_logs (evs : list Event) (s : Process) :
  match phase s with
  | Binding =>
      logs (snd (steps s evs)) = []
      \/ logs (snd (steps s evs))
         = ["Running on http://" +:+ host s +:+ ":" +:+ JS.to_string (port s)]
  | _ => logs (snd (steps s evs)) = []
  end.
Proof.
  revert s. induction evs as [|ev evs IH]; intros s.
  - destruct (phase s); cbn; auto.
  - rewrite steps_cons. cbn [snd]. rewrite logs_app.
    specialize (IH (fst (step s ev))). unfold step in *.
    destruct (phase s) eqn:Hph, ev; try destruct (serve _);
      cbn in *; rewrite ?Hph in IH; auto.
    rewrite IH. auto.
Qed.

End EventLoop.

(* ===================================================================== *)
(** ** Startup: port and host *)
(* ===================================================================== *)

(** C2. The listen port is computed from the environment at startup:
    when APP_PORT_NUMBER is unset or the empty string the port is the
    number 80; for every non-empty value the port is that value. *)
Theorem port_default_or_env (e : gmap string string) :
  (e !! "APP_PORT_NUMBER" = None \/ e !! "APP_PORT_NUMBER" = Some ""
     -> PORT e = JS.VNum 80)
  /\ (forall v : string,
        e !! "APP_PORT_NUMBER" = Some v -> v <> "" -> PORT e = JS.VStr v).
Proof.
  unfold PORT, JS.or, env_get. split.
  - intros [-> | ->]; reflexivity.
  - intros v -> Hv. cbn [JS.truthy].
    destruct (String.eqb_spec v ""); [contradiction | reflexivity].
Qed.

Lemma port_default_or_env_witness :
  PORT ∅ = JS.VNum 80
  /\ PORT {[ "APP_PORT_NUMBER" := "" ]} = JS.VNum 80
  /\ PORT {[ "APP_PORT_NUMBER" := "8080" ]} = JS.VStr "8080".
Proof.
  split; [| split].
  - apply (proj1 (port_default_or_env ∅)). left. reflexivity.
  - apply (proj1 (port_default_or_env {[ "APP_PORT_NUMBER" := "" ]})).
    right. reflexivity.
  - apply (proj2 (port_default_or_env {[ "APP_PORT_NUMBER" := "8080" ]})).
    + reflexivity.
    + discriminate.
Defined.

(** C5. The value of APP_PORT_NUMBER is never validated: for every
    non-empty string, numeric or not, startup runs through and hands
    that very string, unparsed, to [app.listen]. *)
Theorem port_passed_unvalidated (e : gmap string string) (v : string) :
  e !! "APP_PORT_NUMBER" = Some v -> v <> "" ->
  main e
  = ({| env := e; port := JS.VStr v; host := "0.0.0.0"; phase := Binding |},
     [EnvRead "APP_PORT_NUMBER"; Listen (JS.VStr v) "0.0.0.0"]).
Proof.
  intros He Hv. unfold main, HOST, PORT, JS.or, env_get. rewrite He.
  cbn [JS.truthy]. destruct (String.eqb_spec v ""); [contradiction |].
  reflexivity.
Qed.

Lemma port_passed_unvalidated_witness :
  snd (main {[ "APP_PORT_NUMBER" := "abc" ]})
  = [EnvRead "APP_PORT_NUMBER"; Listen (JS.VStr "abc") "0.0.0.0"].
Proof.
  rewrite (port_passed_unvalidated {[ "APP_PORT_NUMBER" := "abc" ]} "abc").
  - reflexivity.
  - reflexivity.
  - discriminate.
Defined.

Section Claims.
Context `{Platform}.

(** C8. In every execution, whatever the environment holds, the host
    handed to [app.listen] and kept by the process is "0.0.0.0". *)
Theorem host_is_wildcard (e : gmap string string) (evs : list Event) :
  host (fst (run e evs)) = "0.0.0.0"
  /\ filter is_listen (snd (run e evs)) = [Listen (PORT e) "0.0.0.0"].
Proof.
  rewrite run_eq. cbn [fst snd]. split.
  - destruct (steps_frame evs (fst (main e))) as (_ & Hh & _).
    rewrite Hh. reflexivity.
  - destruct (steps_no_startup_effect evs (fst (main e))) as (_ & Hl).
    rewrite filter_cons_False by (cbn; auto).
    rewrite filter_cons_True by (cbn; auto).
    rewrite Hl. reflexivity.
Qed.

(** C6. The listen address is read from the environment once, at
    startup, and never changes: the trace of every execution starts
    with the one environment read and the one bind, no later turn reads
    the environment or binds again, the process keeps the port and host
    computed at startup, and putting any other environment in place
    after startup changes nothing of what the process does. *)
Theorem listen_address_read_once (e : gmap string string)
    (evs : list Event) :
  (exists rest : list Effect,
     snd (run e evs)
     = EnvRead "APP_PORT_NUMBER" :: Listen (PORT e) HOST :: rest
     /\ filter is_env_read rest = []
     /\ filter is_listen rest = [])
  /\ port (fst (run e evs)) = PORT e
  /\ host (fst (run e evs)) = HOST
  /\ (forall e' : gmap string string,
        snd (steps (with_env e' (fst (main e))) evs)
        = snd (steps (fst (main e)) evs)).
Proof.
  rewrite run_eq. cbn [fst snd].
  destruct (steps_frame evs (fst (main e))) as (Hp & Hh & _).
  destruct (steps_no_startup_effect evs (fst (main e))) as (Hr & Hl).
  split; [| split; [| split]].
  - eexists. split; [reflexivity | split; assumption].
  - rewrite Hp. reflexivity.
  - rewrite Hh. reflexivity.
  - intros e'. rewrite steps_env_irrelevant. reflexivity.
Qed.

(** C7. Handling a request has no side effect beyond the response: the
    process (port, host, environment, phase) is left as it was, nothing
    is logged, and every effect of the turn is a response.  Over a whole
    execution the log holds at most the startup line. *)
Theorem request_has_no_side_effect (s : Process) (time : Z) (req : Request)
    (e : gmap string string) (evs : list Event) :
  fst (step s (Incoming time req)) = s
  /\ logs (snd (step s (Incoming time req))) = []
  /\ forallb is_respond (snd (step s (Incoming time req))) = true
  /\ (logs (snd (run e evs)) = []
      \/ logs (snd (run e evs)) = [startup_line e]).
Proof.
  split; [| split; [| split]].
  - unfold step. destruct (phase s); reflexivity.
  - unfold step. destruct (phase s); try destruct (serve _); reflexivity.
  - unfold step. destruct (phase s); try destruct (serve _); reflexivity.
  - rewrite run_eq. cbn [snd logs].
    pose proof (steps_logs evs (fst (main e))) as Hl.
    cbn [main fst phase host port] in Hl. exact Hl.
Qed.

End Claims.

(* ===================================================================== *)
(** ** Requests *)
(* ===================================================================== *)

Section RequestClaims.
Context `{Platform}.

(** C1 (amended). For every GET request to "/" the freshness test of
    [res.send] decides the response: when it fails, as it does for every
    request without If-None-Match and If-Modified-Since, the status is
    200 and the body is exactly the greeting; when it succeeds the
    status is 304 and the body is empty. *)
Theorem root_get_response (req : Request) :
  method req = GET -> path req = "/" ->
  (root_fresh req = false ->
     statusCode (handle app req) = 200%Z /\ body (handle app req) = greeting)
  /\ (root_fresh req = true ->
     statusCode (handle app req) = 304%Z /\ body (handle app req) = "")
  /\ (headers req !! "if-none-match" = None ->
      headers req !! "if-modified-since" = None ->
      root_fresh req = false).
Proof.
  intros Hm Hp. rewrite handle_app, Hp, Hm. cbn [String.eqb Ascii.eqb].
  change ("/" =? "/")%string with true. cbv iota.
  destruct (served_root req (or_introl Hm)) as [Hstale Hfresh].
  rewrite Hm in Hstale. split; [| split].
  - intros Hf. destruct (Hstale Hf) as (Hs & Hb & _). auto.
  - intros Hf. destruct (Hfresh Hf) as (Hs & Hb & _). auto.
  - intros Hn Hs. apply fresh_unconditional; assumption.
Qed.

(** C3. Every GET request whose path is not "/" is answered by the
    final handler: status 404, hence not 200, and a body that is not
    the greeting. *)
Theorem other_path_not_found (req : Request) :
  method req = GET -> path req <> "/" ->
  handle app req = finalhandler req init_response
  /\ statusCode (handle app req) = 404%Z
  /\ statusCode (handle app req) <> 200%Z
  /\ body (handle app req) <> greeting.
Proof.
  intros _ Hp. rewrite handle_other_path by assumption.
  destruct (finalhandler_init req) as [Hs Hb].
  repeat split; try assumption. rewrite Hs. discriminate.
Qed.

(** C4 (amended). Any two GET requests to "/" that fail the freshness
    test get the same response from the framework (status, headers and
    body), whatever their headers, their arrival times and the states
    of the serving process they arrive in; its body is the greeting. *)
Theorem root_response_constant (r1 r2 : Request) (s1 s2 : Process)
    (t1 t2 : Z) :
  method r1 = GET -> method r2 = GET ->
  path r1 = "/" -> path r2 = "/" ->
  root_fresh r1 = false -> root_fresh r2 = false ->
  phase s1 = Serving -> phase s2 = Serving ->
  snd (step s1 (Incoming t1 r1)) = snd (step s2 (Incoming t2 r2))
  /\ handle app r1 = handle app r2
  /\ body (handle app r1) = greeting.
Proof.
  intros Hm1 Hm2 Hp1 Hp2 Hf1 Hf2 Hs1 Hs2.
  assert (Hsend : forall r, method r = GET -> path r = "/" ->
            root_fresh r = false ->
            handle app r
            = end_ greeting (send_entity_headers greeting init_response)).
  { intros r Hm Hp Hf. rewrite handle_app, Hp, Hm.
    change ("/" =? "/")%string with true. cbv iota.
    rewrite send_clean_stale_eq.
    - rewrite Hm. reflexivity.
    - apply init_response_clean.
    - rewrite root_fresh_spec by (left; assumption). assumption. }
  unfold step, serve. rewrite Hs1, Hs2, Hm1, Hm2.
  cbn [bool_decide decide_rel].
  rewrite (Hsend r1), (Hsend r2) by assumption.
  repeat split; reflexivity.
Qed.

(** C9 (amended). The program registers one route, for GET only.  A
    request to "/" whose method is neither GET nor HEAD is not handled
    by it and never gets the greeting: a CONNECT request never reaches
    the application and gets no response at all; an OPTIONS request
    gets the framework's automatic answer, status 200 with the header
    [Allow: GET,HEAD] and the body "GET,HEAD"; every other method
    falls through to the final handler, status 404. *)
Theorem root_other_method (req : Request) :
  path req = "/" -> method req <> GET -> method req <> HEAD ->
  router app
  = Some [Middleware query; Middleware expressInit; RouteLayer root_route]
  /\ route_methods root_route = [GET]
  /\ handles_method root_route (method req) = false
  /\ (forall res : Response, serve req = Some res -> body res <> greeting)
  /\ (method req = CONNECT -> serve req = None)
  /\ (method req <> OPTIONS -> method req <> CONNECT ->
      serve req = Some (finalhandler req init_response)
      /\ statusCode (finalhandler req init_response) = 404%Z)
  /\ (method req = OPTIONS ->
      exists res : Response,
        serve req = Some res
        /\ statusCode res = 200%Z
        /\ body res = "GET,HEAD"
        /\ getHeader "allow" res = Some "GET,HEAD").
Proof.
  intros Hp Hg Hh.
  assert (Hcases : (method req = OPTIONS
                    /\ handle app req
                       = sendOptionsResponse req [GET; HEAD] init_response)
                   \/ (method req <> OPTIONS
                       /\ handle app req = finalhandler req init_response)).
  { rewrite handle_app, Hp. change ("/" =? "/")%string with true. cbv iota.
    destruct (method req); try contradiction;
      solve [ left; split; reflexivity
            | right; split; [discriminate | reflexivity] ]. }
  destruct (finalhandler_init req) as [Hnf Hnfb].
  split; [apply app_router |]. split; [reflexivity |]. split.
  { destruct (method req); try contradiction; reflexivity. }
  unfold serve. split; [| split; [| split]].
  - intros res. destruct (bool_decide (method req = CONNECT));
      [discriminate |]. intros [= <-].
    destruct Hcases as [[Ho ->] | [Ho ->]]; [| assumption].
    destruct (options_init req Ho) as (_ & -> & _). discriminate.
  - intros Hc. rewrite Hc. reflexivity.
  - intros Ho Hc. rewrite bool_decide_eq_false_2 by assumption.
    destruct Hcases as [[Ho' _] | [_ ->]]; [contradiction | auto].
  - intros Ho. rewrite Ho. cbn [bool_decide decide_rel].
    destruct Hcases as [[_ ->] | [Ho' _]]; [| contradiction].
    destruct (options_init req Ho) as (Hs & Hb & _ & Ha).
    eexists. split; [reflexivity | auto].
Qed.

(** C10. Every response to "/" with status 200 carries the content type
    that [res.send] gives a string body, text/html with the utf-8
    charset, and so not text/plain. *)
Theorem root_content_type (req : Request) :
  path req = "/" -> statusCode (handle app req) = 200%Z ->
  getHeader "content-type" (handle app req)
  = Some "text/html; charset=utf-8"
  /\ getHeader "content-type" (handle app req) <> Some "text/plain".
Proof.
  intros Hp Hs.
  assert (Hct : getHeader "content-type" (handle app req)
                = Some "text/html; charset=utf-8").
  { revert Hs. rewrite handle_app, Hp.
    change ("/" =? "/")%string with true. cbv iota.
    destruct (method req) eqn:Hm;
      try (destruct (finalhandler_init req) as [-> _]; discriminate).
    - destruct (served_root req (or_introl Hm)) as [Hstale Hfresh].
      destruct (root_fresh req).
      + destruct (Hfresh eq_refl) as (-> & _). discriminate.
      + destruct (Hstale eq_refl) as (_ & _ & Hct). auto.
    - destruct (served_root req (or_intror Hm)) as [Hstale Hfresh].
      destruct (root_fresh req).
      + destruct (Hfresh eq_refl) as (-> & _). discriminate.
      + destruct (Hstale eq_refl) as (_ & _ & Hct). auto.
    - destruct (options_init req Hm) as (_ & _ & Hct & _). auto. }
  split; [assumption |]. rewrite Hct. discriminate.
Qed.

End RequestClaims.

(* ===================================================================== *)
(** ** The claims at concrete requests *)
(* ===================================================================== *)

(** A plain [GET /] gets 200 and the greeting. *)
Lemma root_get_response_witness :
  statusCode (@handle plain_platform (@app plain_platform) get_root) = 200%Z
  /\ body (@handle plain_platform (@app plain_platform) get_root) = greeting.
Proof.
  destruct (@root_get_response plain_platform get_root eq_refl eq_refl)
    as (Hstale & _ & Hplain).
  apply Hstale, Hplain; reflexivity.
Defined.

(** C1 as stated fails: [GET /] with [If-None-Match: *] is a GET request
    to the root path, and on every platform its response has status 304
    and an empty body. *)
Lemma root_get_if_none_match_304 :
  method get_root_if_none_match = GET
  /\ path get_root_if_none_match = "/"
  /\ forall P : Platform,
       statusCode (@handle P (@app P) get_root_if_none_match) = 304%Z
       /\ body (@handle P (@app P) get_root_if_none_match) = ""
       /\ body (@handle P (@app P) get_root_if_none_match) <> greeting.
Proof.
  split; [reflexivity |]. split; [reflexivity |]. intros P.
  assert (Hf : @root_fresh P get_root_if_none_match = true)
    by apply fresh_star.
  rewrite handle_app. cbn [path get_root_if_none_match method].
  change ("/" =? "/")%string with true. cbv iota.
  destruct (served_root get_root_if_none_match (or_introl eq_refl))
    as [_ Hfresh].
  destruct (Hfresh Hf) as (Hs & Hb & _).
  rewrite Hs, Hb. repeat split. discriminate.
Qed.

Lemma other_path_not_found_witness :
  statusCode (@handle plain_platform (@app plain_platform) get_health)
  = 404%Z
  /\ body (@handle plain_platform (@app plain_platform) get_health)
     <> greeting.
Proof.
  destruct (@other_path_not_found plain_platform get_health eq_refl)
    as (_ & Hs & _ & Hb).
  - discriminate.
  - split; assumption.
Defined.

(** Two plain GET requests to "/" that differ in an unrelated header
    and arrive at different times in different processes get the same
    response. *)
Lemma root_response_constant_witness :
  @handle plain_platform (@app plain_platform) get_root
  = @handle plain_platform (@app plain_platform)
      {| method := GET; path := "/";
         headers := {[ "user-agent" := "curl/8.5.0" ]} |}.
Proof.
  refine (proj1 (proj2
    (@root_response_constant plain_platform get_root
       {| method := GET; path := "/";
          headers := {[ "user-agent" := "curl/8.5.0" ]} |}
       {| env := ∅; port := JS.VNum 80; host := HOST; phase := Serving |}
       {| env := {[ "APP_PORT_NUMBER" := "8080" ]};
          port := JS.VStr "8080"; host := HOST; phase := Serving |}
       0%Z 1700000000%Z _ _ _ _ _ _ _ _))); reflexivity.
Defined.

(** C4 as stated fails: two GET requests to "/" that differ only in
    their headers get different bodies on every platform. *)
Lemma root_bodies_differ_by_headers :
  method get_root = GET /\ method get_root_if_none_match = GET
  /\ path get_root = "/" /\ path get_root_if_none_match = "/"
  /\ forall P : Platform,
       body (@handle P (@app P) get_root) = greeting
       /\ body (@handle P (@app P) get_root_if_none_match) = ""
       /\ body (@handle P (@app P) get_root)
          <> body (@handle P (@app P) get_root_if_none_match).
Proof.
  repeat (split; [reflexivity |]). intros P.
  assert (Hf : @root_fresh P get_root_if_none_match = true)
    by apply fresh_star.
  assert (Hg : @root_fresh P get_root = false)
    by (apply fresh_unconditional; reflexivity).
  rewrite !handle_app. cbn [path get_root get_root_if_none_match method].
  change ("/" =? "/")%string with true. cbv iota.
  destruct (served_root get_root_if_none_match (or_introl eq_refl))
    as [_ Hfresh].
  destruct (served_root get_root (or_introl eq_refl)) as [Hstale _].
  destruct (Hfresh Hf) as (_ & Hb & _).
  destruct (Hstale Hg) as (_ & Hb' & _).
  rewrite Hb, Hb'. repeat split. discriminate.
Qed.

Lemma root_other_method_witness :
  @serve plain_platform post_root
  = Some (@finalhandler plain_platform post_root init_response)
  /\ statusCode (@finalhandler plain_platform post_root init_response)
     = 404%Z.
Proof.
  destruct (@root_other_method plain_platform post_root eq_refl)
    as (_ & _ & _ & _ & _ & Hnf & _).
  - discriminate.
  - discriminate.
  - apply Hnf; discriminate.
Defined.

(** C9 as stated fails: OPTIONS is neither GET nor HEAD, yet on every
    platform an [OPTIONS /] request does not end in the final handler:
    it gets status 200 where the final handler answers 404. *)
Lemma options_root_is_answered :
  path options_root = "/"
  /\ method options_root <> GET /\ method options_root <> HEAD
  /\ forall P : Platform,
       statusCode (@handle P (@app P) options_root) = 200%Z
       /\ body (@handle P (@app P) options_root) = "GET,HEAD"
       /\ statusCode (@finalhandler P options_root init_response) = 404%Z
       /\ @handle P (@app P) options_root
          <> @finalhandler P options_root init_response.
Proof.
  split; [reflexivity |]. split; [discriminate |]. split; [discriminate |].
  intros P. rewrite handle_app. cbn [path options_root method].
  change ("/" =? "/")%string with true. cbv iota.
  destruct (options_init options_root eq_refl) as (Hs & Hb & _).
  destruct (finalhandler_init options_root) as [Hs' _].
  repeat split; try assumption.
  intros Heq. rewrite Heq in Hs. rewrite Hs in Hs'. discriminate.
Qed.

Lemma root_content_type_witness :
  getHeader "content-type"
    (@handle plain_platform (@app plain_platform) get_root)
  = Some "text/html; charset=utf-8".
Proof.
  refine (proj1 (@root_content_type plain_platform get_root _ _));
    reflexivity.
Defined.

(* ===================================================================== *)
(** ** Further properties of the service *)
(* ===================================================================== *)

Lemma getHeader_end_ (k chunk : string) (res : Response) :
  getHeader k (end_ chunk res) = getHeader k res.
Proof. reflexivity. Qed.

Lemma getHeader_setStatus (k : string) (code : Z) (res : Response) :
  getHeader k (setStatus code res) = getHeader k res.
Proof. reflexivity. Qed.

(** Headers other than the ones named leave a lookup alone. *)
Ltac other_header :=
  repeat first
    [ rewrite getHeader_end_
    | rewrite getHeader_setStatus
    | rewrite getHeader_setHeader
    | rewrite getHeader_removeHeader
    | rewrite decide_False by congruence ].

Section SendFrame.
Context `{Platform}.

Lemma send_finished (req : Request) (chunk : string) (res : Response) :
  finished (send req chunk res) = true.
Proof.
  unfold send. destruct (send_strip _ chunk) as [res1 chunk1].
  destruct (send_reset res1 chunk1) as [res2 chunk2].
  destruct (bool_decide (method req = HEAD)); reflexivity.
Qed.

(** [res.send] touches four headers only. *)
Lemma send_other_header (k : string) (req : Request) (chunk : string)
    (res : Response) :
  k <> "content-type" -> k <> "content-length" -> k <> "etag" ->
  k <> "transfer-encoding" ->
  getHeader k (send req chunk res) = getHeader k res.
Proof.
  intros Hct Hcl Het Hte.
  unfold send, send_freshness, send_strip, send_reset, send_entity_headers.
  destruct (getHeader "content-type" res) as [t|];
    [destruct (String.eqb t "") |]; cbv zeta;
    destruct (etag_of chunk); try destruct (negb _);
    destruct (req_fresh _ _);
    repeat match goal with
           | |- context [if ?b then _ else _] => destruct b
           end;
    other_header; reflexivity.
Qed.

Lemma finalhandler_other_header (k : string) (req : Request)
    (res : Response) :
  k <> "content-encoding" -> k <> "content-language" ->
  k <> "content-range" -> k <> "content-security-policy" ->
  k <> "x-content-type-options" -> k <> "content-type" ->
  k <> "content-length" ->
  getHeader k (finalhandler req res) = getHeader k res.
Proof.
  intros. unfold finalhandler.
  destruct (finished res); [reflexivity |].
  destruct (bool_decide (method req = HEAD)); other_header; reflexivity.
Qed.

Lemma finalhandler_finished (req : Request) (res : Response) :
  finished res = false -> finished (finalhandler req res) = true.
Proof.
  intros Hf. unfold finalhandler. rewrite Hf.
  destruct (bool_decide (method req = HEAD)); reflexivity.
Qed.

Lemma entity_headers_length (chunk : string) (res : Response) :
  getHeader "content-length" (send_entity_headers chunk res)
  = Some (pretty (String.length chunk)).
Proof.
  unfold send_entity_headers.
  destruct (getHeader "content-type" res) as [t|];
    [destruct (String.eqb t "") |]; cbv zeta;
    destruct (etag_of chunk); try destruct (negb _);
    header_lookup; reflexivity.
Qed.

End SendFrame.

Section Tokens.

Lemma substring_full (s : string) : substring 0 (String.length s) s = s.
Proof.
  induction s as [|c s IH]; [reflexivity |]. cbn. rewrite IH. reflexivity.
Qed.

Lemma parseTokenList_go_plain (str rest : string) (i start end_ : nat) :
  plain_token rest = true ->
  parseTokenList_go str rest i start end_
  = [substring start
       (match rest with
        | EmptyString => end_
        | String _ _ => i + String.length rest
        end - start) str].
Proof.
  revert i start end_. induction rest as [|c rest IH]; intros i start end_ Hp.
  - reflexivity.
  - cbn [plain_token] in Hp. apply andb_true_iff in Hp as [Hc Hr].
    unfold is_sep in Hc. apply negb_true_iff, orb_false_iff in Hc as [Hs Hk].
    cbn [parseTokenList_go]. rewrite Hs, Hk.
    rewrite IH by assumption. do 2 f_equal.
    destruct rest; cbn [String.length]; lia.
Qed.

(** A list of one token parses to that token. *)
Lemma parseTokenList_plain (s : string) :
  plain_token s = true -> parseTokenList s = [s].
Proof.
  intros Hp. unfold parseTokenList.
  rewrite parseTokenList_go_plain by assumption.
  destruct s as [|c s]; [reflexivity |].
  rewrite Nat.sub_0_r, Nat.add_0_l. rewrite substring_full. reflexivity.
Qed.

Context `{Platform}.

(** A request whose only validator is the current entity tag is fresh. *)
Lemma fresh_same_tag (hs : gmap string string) (tag : string) :
  hs !! "if-none-match" = Some tag -> tag <> "" -> plain_token tag = true ->
  hs !! "cache-control" = None -> hs !! "if-modified-since" = None ->
  fresh hs (Some tag) None = true.
Proof.
  intros Hn Hne Hp Hc Hm. unfold fresh. rewrite Hn, Hc, Hm.
  cbn [JS.truthy_str negb andb default].
  destruct (String.eqb_spec tag ""); [contradiction |]. cbn [negb andb].
  rewrite parseTokenList_plain by assumption. cbn [existsb].
  unfold etag_matches. rewrite String.eqb_refl. cbn [orb negb].
  rewrite andb_false_r. reflexivity.
Qed.

(** Reloading wins over validators. *)
Lemma fresh_no_cache (hs : gmap string string) (cc : string)
    (etag lm : option string) :
  hs !! "cache-control" = Some cc -> no_cache cc = true ->
  fresh hs etag lm = false.
Proof.
  intros Hc Hn. unfold fresh. rewrite Hc, Hn.
  destruct (_ && _); reflexivity.
Qed.

Lemma etag_of_Some (chunk tag : string) :
  etag_of chunk = Some tag -> tag <> "".
Proof.
  unfold etag_of.
  destruct (String.eqb_spec (etagFn chunk) ""); [discriminate |].
  intros [= <-]. assumption.
Qed.

End Tokens.

Section Shape.
Context `{Platform}.

Lemma send_init_status (req : Request) (chunk : string) (res : Response) :
  clean res ->
  statusCode (send req chunk res) = 200%Z
  \/ statusCode (send req chunk res) = 304%Z.
Proof.
  intros Hc. destruct (req_fresh req (send_entity_headers chunk res)) eqn:Hf.
  - right. apply send_clean_fresh; assumption.
  - left. apply send_clean_stale; assumption.
Qed.

Lemma allow_clean : clean (setHeader "allow" "GET,HEAD" init_response).
Proof. split; reflexivity. Qed.

(** X5. A CONNECT request, and only a CONNECT request, gets no
    response.  Every other request gets a finished response whose
    status is 200, 304 or 404, and the status is 404 exactly when the
    path is not "/" or the method is none of GET, HEAD and OPTIONS. *)
Theorem every_request_answered (req : Request) :
  (serve req = None <-> method req = CONNECT)
  /\ (forall res : Response,
        serve req = Some res ->
        finished res = true
        /\ (statusCode res = 200%Z \/ statusCode res = 304%Z
            \/ statusCode res = 404%Z)
        /\ (statusCode res = 404%Z
            <-> path req <> "/"
                \/ (method req <> GET /\ method req <> HEAD
                    /\ method req <> OPTIONS))).
Proof.
  unfold serve. split.
  - destruct (bool_decide_reflect (method req = CONNECT));
      split; try discriminate; auto. intros Hc. contradiction.
  - intros res. destruct (bool_decide (method req = CONNECT));
      [discriminate |]. intros [= <-].
    rewrite handle_app.
    destruct (finalhandler_init req) as [Hnf _].
    pose proof (finalhandler_finished req init_response eq_refl) as Hnff.
    destruct (String.eqb_spec "/" (path req)) as [Hp | Hp].
    + destruct (method req) eqn:Hm;
        try (split; [exact Hnff |]; split; [auto |];
             split; [intros _; right; repeat split; discriminate | auto]).
      * split; [apply send_finished |].
        destruct (send_init_status req greeting _ init_response_clean)
          as [-> | ->];
          (split; [auto |]); (split; [discriminate |]);
          intros [Hn | (Hn & _)]; congruence.
      * split; [apply send_finished |].
        destruct (send_init_status req greeting _ init_response_clean)
          as [-> | ->];
          (split; [auto |]); (split; [discriminate |]);
          intros [Hn | (_ & Hn & _)]; congruence.
      * split; [apply send_finished |].
        destruct (options_init req Hm) as (-> & _).
        split; [auto |]. split; [discriminate |].
        intros [Hn | (_ & _ & Hn)]; congruence.
    + split; [exact Hnff |]. split; [auto |].
      split; [intros _; left; congruence | auto].
Qed.

(** X6. The body of a response is the greeting exactly when the
    request is a GET to "/" that fails the freshness test: no other
    path, method or conditional request ever gets it. *)
Theorem greeting_only_for_get_root (req : Request) :
  body (handle app req) = greeting
  <-> method req = GET /\ path req = "/" /\ root_fresh req = false.
Proof.
  rewrite handle_app. split.
  - destruct (finalhandler_init req) as [_ Hnf].
    destruct (String.eqb_spec "/" (path req)) as [Hp | Hp];
      [| intros Hb; contradiction].
    destruct (method req) eqn:Hm; try (intros Hb; contradiction).
    + destruct (served_root req (or_introl Hm)) as [_ Hfresh].
      destruct (root_fresh req); [| auto].
      destruct (Hfresh eq_refl) as (_ & -> & _). discriminate.
    + destruct (served_root req (or_intror Hm)) as [Hstale Hfresh].
      destruct (root_fresh req).
      * destruct (Hfresh eq_refl) as (_ & -> & _). discriminate.
      * destruct (Hstale eq_refl) as (_ & -> & _). rewrite Hm. discriminate.
    + destruct (options_init req Hm) as (_ & -> & _). discriminate.
  - intros (Hm & Hp & Hf). rewrite Hp, Hm.
    change ("/" =? "/")%string with true. cbv iota.
    destruct (served_root req (or_introl Hm)) as [Hstale _].
    destruct (Hstale Hf) as (_ & -> & _). rewrite Hm. reflexivity.
Qed.

(** X7. A HEAD request to "/" is served by the GET route: with the
    freshness test failing it gets status 200, an empty body and the
    very headers of the GET response, among them the content length 53
    of the greeting it does not carry. *)
Theorem head_root_mirrors_get (rh rg : Request) :
  method rh = HEAD -> method rg = GET ->
  path rh = "/" -> path rg = "/" ->
  root_fresh rh = false -> root_fresh rg = false ->
  statusCode (handle app rh) = 200%Z
  /\ body (handle app rh) = ""
  /\ resHeaders (handle app rh) = resHeaders (handle app rg)
  /\ getHeader "content-length" (handle app rh) = Some "53".
Proof.
  intros Hmh Hmg Hph Hpg Hfh Hfg.
  rewrite !handle_app, Hph, Hpg, Hmh, Hmg.
  change ("/" =? "/")%string with true. cbv iota.
  rewrite !send_clean_stale_eq;
    try apply init_response_clean;
    try (rewrite root_fresh_spec by auto; assumption).
  rewrite Hmh, Hmg. cbn [bool_decide decide_rel].
  destruct (entity_headers_clean greeting _ init_response_clean) as (Hs & _).
  repeat split; try assumption.
  rewrite getHeader_end_. rewrite entity_headers_length. reflexivity.
Qed.

(** X8. The program never disables the framework's signature: every
    response, found or not, carries [X-Powered-By: Express]. *)
Theorem powered_by_on_every_response (req : Request) :
  getHeader "x-powered-by" (handle app req) = Some "Express".
Proof.
  rewrite handle_app.
  assert (Hnf : getHeader "x-powered-by" (finalhandler req init_response)
                = Some "Express")
    by (rewrite finalhandler_other_header by discriminate; reflexivity).
  assert (Hsend : getHeader "x-powered-by" (send req greeting init_response)
                  = Some "Express")
    by (rewrite send_other_header by discriminate; reflexivity).
  destruct (String.eqb "/" (path req)); [| exact Hnf].
  destruct (method req); try assumption.
  unfold sendOptionsResponse.
  rewrite send_other_header by discriminate. reflexivity.
Qed.

(** X9. Revalidation round trip: the entity tag handed out with a 200
    response to GET "/", sent back as the only validator of a later GET
    "/" (no Cache-Control, no If-Modified-Since), is answered 304 with
    an empty body.  The tag must hold no space and no comma, as entity
    tags do. *)
Theorem etag_revalidation (r1 r2 : Request) (tag : string) :
  method r1 = GET -> path r1 = "/" -> root_fresh r1 = false ->
  getHeader "etag" (handle app r1) = Some tag ->
  plain_token tag = true ->
  method r2 = GET -> path r2 = "/" ->
  headers r2 !! "if-none-match" = Some tag ->
  headers r2 !! "cache-control" = None ->
  headers r2 !! "if-modified-since" = None ->
  statusCode (handle app r2) = 304%Z /\ body (handle app r2) = "".
Proof.
  intros Hm1 Hp1 Hf1 Htag Hplain Hm2 Hp2 Hn Hc Hms.
  assert (Het : etag_of greeting = Some tag).
  { revert Htag. rewrite handle_app, Hp1, Hm1.
    change ("/" =? "/")%string with true. cbv iota.
    rewrite send_clean_stale_eq;
      [| apply init_response_clean
       | rewrite root_fresh_spec by auto; assumption].
    rewrite getHeader_end_.
    destruct (entity_headers_clean greeting _ init_response_clean)
      as (_ & _ & -> & _). auto. }
  assert (Hf2 : root_fresh r2 = true).
  { unfold root_fresh. rewrite Het.
    apply fresh_same_tag; try assumption. eapply etag_of_Some; eassumption. }
  rewrite handle_app, Hp2, Hm2.
  change ("/" =? "/")%string with true. cbv iota.
  destruct (served_root r2 (or_introl Hm2)) as [_ Hfresh].
  destruct (Hfresh Hf2) as (Hs & Hb & _). auto.
Qed.

(** X10. A GET to "/" whose Cache-Control field holds the directive
    no-cache gets the full answer, status 200 and the greeting,
    whatever validators it carries. *)
Theorem reload_gets_full_response (req : Request) (cc : string) :
  method req = GET -> path req = "/" ->
  headers req !! "cache-control" = Some cc -> no_cache cc = true ->
  statusCode (handle app req) = 200%Z /\ body (handle app req) = greeting.
Proof.
  intros Hm Hp Hc Hn.
  assert (Hf : root_fresh req = false)
    by (eapply fresh_no_cache; eassumption).
  rewrite handle_app, Hp, Hm.
  change ("/" =? "/")%string with true. cbv iota.
  destruct (served_root req (or_introl Hm)) as [Hstale _].
  destruct (Hstale Hf) as (Hs & Hb & _). rewrite Hm in Hb. auto.
Qed.

End Shape.

Section ProcessExtras.
Context `{Platform}.

Lemma port_text_spec (e : gmap string string) :
  JS.to_string (PORT e) = port_text e.
Proof.
  unfold PORT, JS.or, env_get, port_text.
  destruct (e !! "APP_PORT_NUMBER") as [v|]; [| reflexivity].
  cbn [JS.truthy]. destruct (String.eqb v ""); reflexivity.
Qed.

(** X2. When the bind succeeds the log of the execution is exactly one
    line, whatever follows: "Running on http://0.0.0.0:" and the port
    as text, "80" by default and the value of APP_PORT_NUMBER verbatim
    otherwise. *)
Theorem startup_line_after_bind (e : gmap string string)
    (evs : list Event) :
  logs (snd (run e (Listening :: evs)))
  = ["Running on http://0.0.0.0:" +:+ port_text e].
Proof.
  rewrite run_eq, steps_cons. cbn [main fst snd step phase logs].
  cbn [on_listening host port env]. rewrite logs_app.
  pose proof (steps_logs evs
    {| env := e; port := PORT e; host := HOST; phase := Serving |}) as Hl.
  cbn [phase] in Hl. rewrite Hl, <- port_text_spec. reflexivity.
Qed.

(** X4. The program looks at one environment variable only: two
    environments that agree on APP_PORT_NUMBER give the same trace,
    the same port and the same phase for every sequence of events. *)
Theorem only_port_variable_matters (e e' : gmap string string)
    (evs : list Event) :
  e !! "APP_PORT_NUMBER" = e' !! "APP_PORT_NUMBER" ->
  snd (run e evs) = snd (run e' evs)
  /\ port (fst (run e evs)) = port (fst (run e' evs))
  /\ phase (fst (run e evs)) = phase (fst (run e' evs)).
Proof.
  intros He.
  assert (Hport : PORT e = PORT e')
    by (unfold PORT, env_get; rewrite He; reflexivity).
  assert (Hmain : fst (main e') = with_env e' (fst (main e)))
    by (unfold main, with_env; cbn; rewrite Hport; reflexivity).
  rewrite !run_eq, Hmain, steps_env_irrelevant, Hport.
  cbn [fst snd with_env port phase].
  repeat split; reflexivity.
Qed.

End ProcessExtras.

Lemma only_port_variable_matters_witness :
  snd (@run plain_platform ∅ [Listening; Incoming 0 get_root])
  = snd (@run plain_platform
           {[ "PORT" := "3000"; "HOST" := "127.0.0.1" ]}
           [Listening; Incoming 0 get_root]).
Proof.
  refine (proj1 (@only_port_variable_matters plain_platform ∅
                   {[ "PORT" := "3000"; "HOST" := "127.0.0.1" ]}
                   [Listening; Incoming 0 get_root] _)).
  reflexivity.
Defined.

Lemma head_root_mirrors_get_witness :
  body (@handle plain_platform (@app plain_platform)
          {| method := HEAD; path := "/"; headers := ∅ |}) = ""
  /\ getHeader "content-length"
       (@handle plain_platform (@app plain_platform)
          {| method := HEAD; path := "/"; headers := ∅ |}) = Some "53".
Proof.
  refine (let H :=
            @head_root_mirrors_get plain_platform
              {| method := HEAD; path := "/"; headers := ∅ |} get_root
              _ _ _ _ _ _ in
          conj (proj1 (proj2 H)) (proj2 (proj2 (proj2 H))));
    reflexivity.
Defined.

Lemma etag_revalidation_witness :
  statusCode (@handle plain_platform (@app plain_platform)
                {| method := GET; path := "/";
                   headers := {[ "if-none-match" := "W/53" ]} |}) = 304%Z.
Proof.
  refine (proj1 (@etag_revalidation plain_platform get_root
                   {| method := GET; path := "/";
                      headers := {[ "if-none-match" := "W/53" ]} |}
                   "W/53" _ _ _ _ _ _ _ _ _ _)); reflexivity.
Defined.

Lemma reload_gets_full_response_witness :
  body (@handle plain_platform (@app plain_platform)
          {| method := GET; path := "/";
             headers := {[ "if-none-match" := "*";
                           "cache-control" := "max-age=0, no-cache" ]} |})
  = greeting.
Proof.
  refine (proj2 (@reload_gets_full_response plain_platform
                   {| method := GET; path := "/";
                      headers :=
                        {[ "if-none-match" := "*";
                           "cache-control" := "max-age=0, no-cache" ]} |}
                   "max-age=0, no-cache" _ _ _ _)); reflexivity.
Defined.
